(** * dev-watch.py: the polling change detector

  A shallow embedding of [src/dev/dev-watch.py] (the hot-reload watcher of
  the extension project) and the properties of its snapshot, diff and
  watch loop.

  - A Python [dict] is an association list with unique keys, kept in
    insertion order: iteration order is observable in the report.
  - A fingerprint is [option string]: [Some h] for a hex digest, [None]
    for Python's [None].
  - The directory tree below [WATCH_DIR] is the list of its entries (at any
    depth), each with its path relative to the root.  [Path.rglob] yields
    entries in the order the operating system lists them, so the order of
    that list is not part of the directory state; it yields nothing of
    what lies below a directory that cannot be listed.
  - The watch loop is a transition system driven by the events the process
    receives: a poll interval elapses, the user interrupts, or an exception
    that the loop does not catch escapes a cycle. *)

From Stdlib Require Import List String Ascii Bool Arith Lia Permutation ZArith.
From Stdlib Require Import Numbers.DecimalString.
Import ListNotations.
Open Scope string_scope.

(** ** Python dictionaries *)

Module PyDict.
Section Dict.
Context {V : Type}.

Definition dict := list (string * V).

Definition empty : dict := [].

(** [list(d)], the keys in iteration order. *)
Definition keys (d : dict) : list string := map fst d.

(** [d.items()]. *)
Definition items (d : dict) : list (string * V) := d.

(** [d.get(k)]: [None] when the key is absent. *)
Fixpoint get (d : dict) (k : string) : option V :=
  match d with
  | [] => None
  | (k', v) :: d' => if String.eqb k' k then Some v else get d' k
  end.

(** [k in d]. *)
Definition contains (d : dict) (k : string) : bool :=
  match get d k with Some _ => true | None => false end.

(** [d[k] = v]: an existing key keeps its position, a new key goes last. *)
Fixpoint set (d : dict) (k : string) (v : V) : dict :=
  match d with
  | [] => [(k, v)]
  | (k', v') :: d' =>
      if String.eqb k' k then (k', v) :: d' else (k', v') :: set d' k v
  end.

(** The representation invariant of a dictionary: no key occurs twice. *)
Definition wf (d : dict) : Prop := NoDup (keys d).

(** Equality of dictionaries as mappings (what Python's [==] decides). *)
Definition same_mapping (d1 d2 : dict) : Prop :=
  forall k, get d1 k = get d2 k.

End Dict.
Arguments dict V : clear implicits.
End PyDict.

(** ** Strings *)

(** ["\n"]. *)
Definition nl : string := String (ascii_of_nat 10) EmptyString.

(** [s * n]. *)
Fixpoint str_mul (s : string) (n : nat) : string :=
  match n with
  | O => EmptyString
  | S n' => s ++ str_mul s n'
  end.

(** [s.endswith(suffix)], case-sensitive. *)
Definition endswith (s suffix : string) : bool :=
  let n := String.length s in
  let m := String.length suffix in
  Nat.leb m n && String.eqb (substring (n - m) m s) suffix.

(** [str(n)] for a natural number. *)
Definition str_of_nat (n : nat) : string :=
  NilEmpty.string_of_uint (Nat.to_uint n).

(** ** The directory tree below [WATCH_DIR] *)

(** What [open(filepath, 'rb')] and [f.read()] can raise; all of them are
    subclasses of [Exception]. *)
Inductive OSError : Type :=
| FileNotFoundError
| PermissionError
| IsADirectoryError
| OtherOSError.

(** What a path found by the scan points at.  [UnreadableFile e] is a file
    on which opening or reading raises [e] (no permission, deleted since
    the listing, ...).  [UnlistableDirectory] is a directory whose listing
    raises [PermissionError]: the walk of [rglob] swallows that error and
    yields nothing of what lies below. *)
Inductive fsnode : Type :=
| RegularFile (data : list Byte.byte)
| UnreadableFile (err : OSError)
| Directory
| UnlistableDirectory.

(** A path below the root: the directories leading to it, its own name, and
    what is there. *)
Record entry : Type := mkEntry {
  dirs : list string;
  name : string;
  node : fsnode
}.

(** A directory state: every entry below the root, at any depth, in the
    order the operating system happens to list them.  It is the tree as it
    stands during a scan that runs to its end; a directory that goes away
    while the walk is in it makes [rglob] raise, which is an event of the
    process (see [Uncaught]), not a directory state. *)
Definition dirstate : Type := list entry.

(** [filepath.relative_to(WATCH_DIR)], as its components. *)
Definition relative_to (e : entry) : list string := (dirs e ++ [name e])%list.

(** [str(rel_path)]: the components joined by the separator. *)
Definition str_path (parts : list string) : string := String.concat "/" parts.

Definition is_file (n : fsnode) : bool :=
  match n with
  | Directory | UnlistableDirectory => false
  | _ => true
  end.

Definition is_unlistable (n : fsnode) : bool :=
  match n with
  | UnlistableDirectory => true
  | _ => false
  end.

(** [p] is an initial segment of the components [l]. *)
Fixpoint is_prefix (p l : list string) : bool :=
  match p, l with
  | [], _ => true
  | x :: p', y :: l' => String.eqb x y && is_prefix p' l'
  | _ :: _, [] => false
  end.

(** No component of a path holds the separator. *)
Definition no_slash (s : string) : Prop := ~ In "/"%char (list_ascii_of_string s).

(** A directory state is well formed when no two entries have the same path
    and no component holds the separator. *)
Definition wf_dirstate (D : dirstate) : Prop :=
  NoDup (map relative_to D) /\
  Forall (fun e => Forall no_slash (relative_to e)) D.

(** [with open(filepath, 'rb') as f: f.read()]: the bytes, or the exception
    raised. *)
Definition read_bytes (n : fsnode) : OSError + list Byte.byte :=
  match n with
  | RegularFile data => inr data
  | UnreadableFile err => inl err
  | Directory => inl IsADirectoryError
  | UnlistableDirectory => inl PermissionError
  end.

(** Some directory above the entry cannot be listed. *)
Definition below_unlistable (D : dirstate) (e : entry) : bool :=
  existsb (fun a => is_unlistable (node a) && is_prefix (relative_to a) (dirs e)) D.

(** The walk reaches the entry: every directory above it can be listed. *)
Definition listed (D : dirstate) (e : entry) : bool := negb (below_unlistable D e).

(** [WATCH_DIR.rglob(f'*{ext}')]: every path the walk reaches, whatever it
    points at (files and directories alike), whose name matches the pattern.
    A directory that cannot be listed is itself reached, but nothing below
    it is.  Hidden names are not skipped.  The extensions hold no wildcard
    character, so the pattern matches the names that end with [ext]. *)
Definition rglob (D : dirstate) (ext : string) : list entry :=
  filter (fun e => listed D e && endswith (name e) ext) D.

(** ** Fingerprints, snapshots and the change list *)

Definition fingerprint : Type := option string.

Definition snapshot : Type := PyDict.dict fingerprint.

(** [a == b] on fingerprints; [None == None] holds. *)
Definition fingerprint_eqb (a b : fingerprint) : bool :=
  match a, b with
  | Some x, Some y => String.eqb x y
  | None, None => true
  | _, _ => false
  end.

(** The entry of the change list for a new or changed path: [filepath]. *)
Definition modified_record (filepath : string) : string := filepath.

(** The entry of the change list for a deleted path:
    [f"{filepath} (deleted)"]. *)
Definition deleted_record (filepath : string) : string := filepath ++ " (deleted)".

(** [filepath not in file_hashes or file_hashes[filepath] != hash_val]; the
    subscript is evaluated only when the key is present. *)
Definition is_changed (file_hashes : snapshot) (filepath : string)
    (hash_val : fingerprint) : bool :=
  match PyDict.get file_hashes filepath with
  | None => true
  | Some old => negb (fingerprint_eqb old hash_val)
  end.

(** The first loop over [current_hashes.items()]. *)
Definition modified_loop (file_hashes current_hashes : snapshot)
    (changed_files : list string) : list string :=
  fold_left
    (fun changed (item : string * fingerprint) =>
       let (filepath, hash_val) := item in
       if is_changed file_hashes filepath hash_val
       then (changed ++ [modified_record filepath])%list
       else changed)
    (PyDict.items current_hashes) changed_files.

(** The second loop over [file_hashes]. *)
Definition deleted_loop (file_hashes current_hashes : snapshot)
    (changed_files : list string) : list string :=
  fold_left
    (fun changed filepath =>
       if negb (PyDict.contains current_hashes filepath)
       then (changed ++ [deleted_record filepath])%list
       else changed)
    (PyDict.keys file_hashes) changed_files.

(** The value of [changed_files] after both loops. *)
Definition changed_files (file_hashes current_hashes : snapshot) : list string :=
  deleted_loop file_hashes current_hashes
    (modified_loop file_hashes current_hashes []).

(** What [print_reload_instructions()] prints, one string per [print]. *)
Definition print_reload_instructions : list string :=
  [ nl ++ str_mul "=" 50;
    "🔄 FILES CHANGED - RELOAD NEEDED";
    str_mul "=" 50;
    nl ++ "📌 To reload your extension:";
    "   1. Open chrome://extensions";
    "   2. Click the reload icon (🔄) for 'Klue'";
    nl ++ "💡 TIP: Keep the extensions page open in a pinned tab";
    "   for quick reloading during development";
    nl ++ str_mul "-" 50 ++ nl ].

Definition farewell : string := nl ++ nl ++ "👋 Hot reload watcher stopped".

(** [f"   • {filepath}"]. *)
Definition bullet (filepath : string) : string := "   • " ++ filepath.

(** The lines printed when [changed_files] is not empty. *)
Definition report (changed : list string) : list string :=
  ("🔔 Detected changes in:" :: map bullet changed ++ print_reload_instructions)%list.

(** ** The process *)

(** What the process receives while it is inside the [try] block.
    [Tick D]: the sleep ends and the cycle runs to its end on the directory
    state [D].  [KeyboardInterrupt D printed]: the interrupt is raised during
    a cycle that sees [D], once [printed] lines of that cycle's report are
    out ([0] when it is raised during the sleep or the scan).
    [Uncaught D printed]: an exception that is not [KeyboardInterrupt]
    escapes the cycle at that point ([rglob] raising because a directory went
    away during the walk, [print] raising on a closed stream, ...); the
    [try] has no handler for it. *)
Inductive event : Type :=
| Tick (D : dirstate)
| KeyboardInterrupt (D : dirstate) (printed : nat)
| Uncaught (D : dirstate) (printed : nat).

Inductive status : Type :=
| Watching (file_hashes : snapshot)
| Exited (code : Z).

Record process : Type := mkProcess {
  state : status;
  stdout : list string
}.




(** The configuration of the script itself. *)
Module Script.

Definition WATCH_EXTENSIONS : list string := [".js"; ".html"; ".css"; ".json"].

Definition IGNORE_FILES : list string := ["dev-watch.py"; "create-icons.py"].

End Script.

Section Watcher.

(** [hashlib.md5(data).hexdigest()]. *)
Variable md5_hexdigest : list Byte.byte -> string.

(** The watch set: the extension filters and the ignored names. *)
Variable WATCH_EXTENSIONS : list string.
Variable IGNORE_FILES : list string.

(** [str(WATCH_DIR)], for the banner. *)
Variable WATCH_DIR : string.

(** [get_file_hash(filepath)]: any exception of the read gives [None]. *)
Definition get_file_hash (n : fsnode) : fingerprint :=
  match read_bytes n with
  | inr data => Some (md5_hexdigest data)
  | inl _ => None
  end.

(** [filepath.name in IGNORE_FILES]. *)
Definition ignored (e : entry) : bool :=
  existsb (String.eqb (name e)) IGNORE_FILES.

(** The body of the inner loop of [get_all_watched_files]. *)
Definition visit (files : snapshot) (filepath : entry) : snapshot :=
  if ignored filepath then files
  else PyDict.set files (str_path (relative_to filepath))
         (get_file_hash (node filepath)).

(** The inner loop, for one extension. *)
Definition scan_ext (D : dirstate) (files : snapshot) (ext : string) : snapshot :=
  fold_left visit (rglob D ext) files.

(** [get_all_watched_files()] on the directory state [D]. *)
Definition get_all_watched_files (D : dirstate) : snapshot :=
  fold_left (scan_ext D) WATCH_EXTENSIONS PyDict.empty.

(** One pass of the body of [while True], after the sleep: what it prints and
    the value of [file_hashes] after it. *)
Definition cycle (file_hashes : snapshot) (D : dirstate) : list string * snapshot :=
  let current_hashes := get_all_watched_files D in
  match changed_files file_hashes current_hashes with
  | [] => ([], file_hashes)
  | changed => (report changed, current_hashes)
  end.

(** One event.  A process that has exited receives nothing more.  The
    handler of [KeyboardInterrupt] prints the farewell and calls
    [sys.exit(0)]; any other exception leaves the script with a traceback on
    the error stream and exit status 1. *)
Definition step (p : process) (ev : event) : process :=
  match state p with
  | Exited _ => p
  | Watching file_hashes =>
      match ev with
      | Tick D =>
          let (out, file_hashes') := cycle file_hashes D in
          {| state := Watching file_hashes'; stdout := (stdout p ++ out)%list |}
      | KeyboardInterrupt D printed =>
          {| state := Exited 0;
             stdout := (stdout p ++ firstn printed (fst (cycle file_hashes D))
                        ++ [farewell])%list |}
      | Uncaught D printed =>
          {| state := Exited 1;
             stdout := (stdout p ++ firstn printed (fst (cycle file_hashes D)))%list |}
      end
  end.

Definition run (p : process) (evs : list event) : process :=
  fold_left step evs p.

(** The script up to the [try]: the banner, the baseline snapshot on [D0] and
    the count of watched paths. *)
Definition startup (D0 : dirstate) : process :=
  let file_hashes := get_all_watched_files D0 in
  {| state := Watching file_hashes;
     stdout :=
       [ "🔥 Hot Reload Watcher Started";
         "📁 Watching directory: " ++ WATCH_DIR;
         "🎯 Watching files: " ++ String.concat ", " WATCH_EXTENSIONS;
         str_mul "-" 50;
         "✅ Watching " ++ str_of_nat (List.length file_hashes) ++ " files" ++ nl ] |}.

(** The value of [file_hashes] after the cycles on the directory states
    [Ds], starting from [file_hashes]. *)
Definition stored (file_hashes : snapshot) (Ds : list dirstate) : snapshot :=
  fold_left (fun fh D => snd (cycle fh D)) Ds file_hashes.

(** The replace-every-cycle policy, for comparison with [stored]: the stored
    snapshot becomes the current one whatever the change list is. *)
Definition stored_replace_always (file_hashes : snapshot) (Ds : list dirstate)
    : snapshot :=
  fold_left (fun _ D => get_all_watched_files D) Ds file_hashes.

(** The paths the watch set selects: the name ends with one of the
    extensions and is not an ignored name. *)
Definition watched (e : entry) : bool :=
  existsb (endswith (name e)) WATCH_EXTENSIONS && negb (ignored e).

End Watcher.

(** ** Conditions on a watch set *)

(** No extension of the list is a suffix of another one (nor listed twice):
    no name matches the patterns of two extensions. *)
Definition suffix_free (exts : list string) : Prop :=
  ForallOrdPairs (fun a b => endswith a b = false /\ endswith b a = false) exts.

(** Every extension is non-empty and does not end with a closing
    parenthesis, the last character of the annotation of a deleted path. *)
Definition plain_extensions (exts : list string) : Prop :=
  Forall (fun ext => ext <> "" /\ endswith ext ")" = false) exts.

(** No ignored name matches the pattern of a watched extension. *)
Definition ignore_unmatched (exts ignore : list string) : Prop :=
  Forall (fun n => existsb (endswith n) exts = false) ignore.

(** ** Sample data *)

(** A stand-in for the digest: any function of the bytes will do. *)
Definition sample_digest (data : list Byte.byte) : string :=
  "md5:" ++ string_of_list_byte data.

Definition bytes_of (s : string) : list Byte.byte := list_byte_of_string s.

(** A tree with a dependency whose directory is named like a script. *)
Definition sample_tree : dirstate :=
  [ mkEntry [] "popup.js" (RegularFile (bytes_of "x"));
    mkEntry [] "manifest.json" (UnreadableFile PermissionError);
    mkEntry [] "dev-watch.py" (RegularFile (bytes_of "#!"));
    mkEntry [] "node_modules" Directory;
    mkEntry ["node_modules"] "chart.js" Directory;
    mkEntry ["node_modules"; "chart.js"] "index.js" (RegularFile (bytes_of "y")) ].

(** The same tree, listed in another order. *)
Definition sample_tree_reordered : dirstate := rev sample_tree.

(** A watching process that has printed nothing yet. *)
Definition sample_process (file_hashes : snapshot) : process :=
  {| state := Watching file_hashes; stdout := [] |}.

(** The tree after an edit of [popup.js], the removal of [manifest.json] and
    the creation of [options/options.html]. *)
Definition sample_tree_edited : dirstate :=
  [ mkEntry [] "popup.js" (RegularFile (bytes_of "z"));
    mkEntry [] "dev-watch.py" (RegularFile (bytes_of "#!"));
    mkEntry [] "node_modules" Directory;
    mkEntry ["node_modules"] "chart.js" Directory;
    mkEntry ["node_modules"; "chart.js"] "index.js" (RegularFile (bytes_of "y"));
    mkEntry [] "options" Directory;
    mkEntry ["options"] "options.html" (RegularFile (bytes_of "o")) ].

(** A tree with a directory that cannot be listed. *)
Definition sample_tree_locked : dirstate :=
  [ mkEntry [] "popup.js" (RegularFile (bytes_of "x"));
    mkEntry [] "private" UnlistableDirectory;
    mkEntry ["private"] "secret.js" (UnreadableFile PermissionError) ].

Definition sample_previous : snapshot :=
  [ ("b.css", Some "1"); ("c.html", Some "2"); ("d.json", None); ("e.js", None) ].

Definition sample_current : snapshot :=
  [ ("a.js", Some "3"); ("b.css", Some "4"); ("d.json", None); ("e.js", Some "5") ].

(** * Properties *)

(** ** Dictionaries *)

Section DictFacts.
Context {V : Type}.

Lemma dict_get_None_iff (d : PyDict.dict V) (k : string) :
  PyDict.get d k = None <-> ~ In k (PyDict.keys d).
Proof.
  induction d as [|[k' v] d IH]; simpl.
  - tauto.
  - destruct (String.eqb_spec k' k) as [->|Hne].
    + split; [discriminate | intros H; exfalso; apply H; now left].
    + rewrite IH. split.
      * intros H [E|I]; [now apply Hne | now apply H].
      * intros H I. apply H. now right.
Qed.

Lemma dict_contains_true_iff (d : PyDict.dict V) (k : string) :
  PyDict.contains d k = true <-> In k (PyDict.keys d).
Proof.
  unfold PyDict.contains. destruct (PyDict.get d k) eqn:E.
  - split; [intros _|reflexivity].
    destruct (in_dec string_dec k (PyDict.keys d)) as [I|N]; [exact I|].
    apply dict_get_None_iff in N. congruence.
  - apply dict_get_None_iff in E. split; [discriminate | tauto].
Qed.

Lemma dict_contains_false_iff (d : PyDict.dict V) (k : string) :
  PyDict.contains d k = false <-> ~ In k (PyDict.keys d).
Proof.
  rewrite <- dict_contains_true_iff. destruct (PyDict.contains d k); split; congruence.
Qed.

Lemma dict_get_In (d : PyDict.dict V) (k : string) (v : V) :
  PyDict.get d k = Some v -> In (k, v) d.
Proof.
  induction d as [|[k' v'] d IH]; simpl; [discriminate|].
  destruct (String.eqb_spec k' k) as [->|Hne].
  - intros [= ->]. now left.
  - intros H. right. now apply IH.
Qed.

Lemma dict_In_get (d : PyDict.dict V) (k : string) (v : V) :
  PyDict.wf d -> In (k, v) d -> PyDict.get d k = Some v.
Proof.
  unfold PyDict.wf. induction d as [|[k' v'] d IH]; simpl; [tauto|].
  intros Hnd [E|I].
  - injection E as -> ->. now rewrite String.eqb_refl.
  - inversion Hnd as [|? ? Hni Hnd']; subst.
    destruct (String.eqb_spec k' k) as [->|Hne].
    + exfalso. apply Hni. change k with (fst (k, v)). now apply in_map.
    + now apply IH.
Qed.

Lemma dict_get_set_eq (d : PyDict.dict V) (k : string) (v : V) :
  PyDict.get (PyDict.set d k v) k = Some v.
Proof.
  induction d as [|[k' v'] d IH]; simpl.
  - now rewrite String.eqb_refl.
  - destruct (String.eqb_spec k' k) as [->|Hne]; simpl.
    + now rewrite String.eqb_refl.
    + destruct (String.eqb_spec k' k); [contradiction | exact IH].
Qed.

Lemma dict_get_set_ne (d : PyDict.dict V) (k k0 : string) (v : V) :
  k <> k0 -> PyDict.get (PyDict.set d k v) k0 = PyDict.get d k0.
Proof.
  intros Hne. induction d as [|[k' v'] d IH]; simpl.
  - destruct (String.eqb_spec k k0); [contradiction | reflexivity].
  - destruct (String.eqb_spec k' k) as [->|Hne']; simpl.
    + destruct (String.eqb_spec k k0); [contradiction | reflexivity].
    + destruct (String.eqb_spec k' k0); [reflexivity | exact IH].
Qed.

Lemma dict_keys_set (d : PyDict.dict V) (k : string) (v : V) :
  PyDict.keys (PyDict.set d k v) = if PyDict.contains d k then PyDict.keys d else (PyDict.keys d ++ [k])%list.
Proof.
  unfold PyDict.contains. induction d as [|[k' v'] d IH]; simpl; [reflexivity|].
  destruct (String.eqb_spec k' k) as [->|Hne]; simpl; [reflexivity|].
  rewrite IH. now destruct (PyDict.get d k).
Qed.

Lemma dict_wf_set (d : PyDict.dict V) (k : string) (v : V) : PyDict.wf d -> PyDict.wf (PyDict.set d k v).
Proof.
  unfold PyDict.wf. intros Hnd. rewrite dict_keys_set.
  destruct (PyDict.contains d k) eqn:E; [exact Hnd|].
  apply dict_contains_false_iff in E.
  apply NoDup_app; [exact Hnd | constructor; [tauto | constructor] |].
  intros x Hx [<-|[]]. now apply E.
Qed.

Lemma dict_wf_empty : PyDict.wf (@PyDict.empty V).
Proof. constructor. Qed.

End DictFacts.

(** ** Strings *)

Lemma append_nil_r (s : string) : s ++ "" = s.
Proof. induction s as [|c s IH]; simpl; [reflexivity | now rewrite IH]. Qed.

Lemma append_length (s t : string) :
  String.length (s ++ t) = String.length s + String.length t.
Proof. induction s as [|c s IH]; simpl; [reflexivity | now rewrite IH]. Qed.

(** Appending the same suffix to two strings keeps them apart. *)
Lemma append_cancel_r (s t u : string) : s ++ u = t ++ u -> s = t.
Proof.
  revert t. induction s as [|c s IH]; intros [|d t] H; simpl in H.
  - reflexivity.
  - apply (f_equal String.length) in H. simpl in H.
    rewrite append_length in H. lia.
  - apply (f_equal String.length) in H. simpl in H.
    rewrite append_length in H. lia.
  - injection H as -> H. f_equal. now apply IH.
Qed.

Lemma deleted_record_inj (p q : string) :
  deleted_record p = deleted_record q -> p = q.
Proof. unfold deleted_record. apply append_cancel_r. Qed.

(** ** The change list *)

Lemma fingerprint_eqb_spec (a b : fingerprint) :
  reflect (a = b) (fingerprint_eqb a b).
Proof.
  destruct a as [x|], b as [y|]; simpl; try (constructor; congruence).
  destruct (String.eqb_spec x y); constructor; congruence.
Qed.

Lemma is_changed_true_iff (file_hashes : snapshot) (p : string) (h : fingerprint) :
  is_changed file_hashes p h = true <-> PyDict.get file_hashes p <> Some h.
Proof.
  unfold is_changed. destruct (PyDict.get file_hashes p) as [old|].
  - destruct (fingerprint_eqb_spec old h); simpl; split; congruence.
  - split; [discriminate | reflexivity].
Qed.

Lemma is_changed_false_iff (file_hashes : snapshot) (p : string) (h : fingerprint) :
  is_changed file_hashes p h = false <-> PyDict.get file_hashes p = Some h.
Proof.
  unfold is_changed. destruct (PyDict.get file_hashes p) as [old|].
  - destruct (fingerprint_eqb_spec old h); simpl; split; congruence.
  - split; discriminate.
Qed.

(** The first loop appends, in the order of [current_hashes], the keys whose
    item passes the test. *)
Lemma modified_loop_filter (file_hashes current_hashes : snapshot) (acc : list string) :
  modified_loop file_hashes current_hashes acc =
  (acc ++ map fst (filter (fun item => is_changed file_hashes (fst item) (snd item))
                     (PyDict.items current_hashes)))%list.
Proof.
  unfold modified_loop, PyDict.items, modified_record.
  revert acc. induction current_hashes as [|[k v] cur IH]; intros acc; simpl.
  - now rewrite app_nil_r.
  - rewrite IH. destruct (is_changed file_hashes k v); simpl.
    + now rewrite <- app_assoc.
    + reflexivity.
Qed.

(** The second loop appends, in the order of [file_hashes], the annotated
    keys that [current_hashes] does not hold. *)
Lemma deleted_loop_filter (file_hashes current_hashes : snapshot) (acc : list string) :
  deleted_loop file_hashes current_hashes acc =
  (acc ++ map deleted_record
            (filter (fun p => negb (PyDict.contains current_hashes p))
               (PyDict.keys file_hashes)))%list.
Proof.
  unfold deleted_loop.
  generalize (PyDict.keys file_hashes) as ks. intros ks.
  revert acc. induction ks as [|k ks IH]; intros acc; simpl.
  - now rewrite app_nil_r.
  - rewrite IH. destruct (PyDict.contains current_hashes k); simpl.
    + reflexivity.
    + now rewrite <- app_assoc.
Qed.

Lemma changed_files_app (file_hashes current_hashes : snapshot) :
  changed_files file_hashes current_hashes =
  (modified_loop file_hashes current_hashes []
   ++ deleted_loop file_hashes current_hashes [])%list.
Proof.
  unfold changed_files.
  rewrite (deleted_loop_filter _ _ (modified_loop _ _ [])).
  now rewrite (deleted_loop_filter _ _ []).
Qed.

Lemma In_modified_loop (file_hashes current_hashes : snapshot) (p : string) :
  In p (modified_loop file_hashes current_hashes []) <->
  exists h, In (p, h) current_hashes /\ PyDict.get file_hashes p <> Some h.
Proof.
  rewrite modified_loop_filter. simpl. rewrite in_map_iff. split.
  - intros [[k h] [E I]]. simpl in E. subst k.
    apply filter_In in I as [I C]. simpl in C.
    exists h. split; [exact I | now apply is_changed_true_iff].
  - intros [h [I C]]. exists (p, h). split; [reflexivity|].
    apply filter_In. split; [exact I | now apply is_changed_true_iff].
Qed.

Lemma In_deleted_loop (file_hashes current_hashes : snapshot) (p : string) :
  In (deleted_record p) (deleted_loop file_hashes current_hashes []) <->
  In p (PyDict.keys file_hashes) /\ ~ In p (PyDict.keys current_hashes).
Proof.
  rewrite deleted_loop_filter. simpl. rewrite in_map_iff. split.
  - intros [q [E I]]. apply deleted_record_inj in E. subst q.
    apply filter_In in I as [I C]. split; [exact I|].
    apply dict_contains_false_iff. now destruct (PyDict.contains current_hashes p).
  - intros [I N]. exists p. split; [reflexivity|].
    apply filter_In. split; [exact I|].
    apply dict_contains_false_iff in N. now rewrite N.
Qed.

Lemma changed_files_nil_iff (file_hashes current_hashes : snapshot) :
  changed_files file_hashes current_hashes = [] <->
  (forall p h, In (p, h) current_hashes -> PyDict.get file_hashes p = Some h) /\
  (forall p, In p (PyDict.keys file_hashes) -> In p (PyDict.keys current_hashes)).
Proof.
  rewrite changed_files_app. split.
  - intros H. apply app_eq_nil in H as [Hm Hd]. split.
    + intros p h I.
      destruct (PyDict.get file_hashes p) as [old|] eqn:G.
      * destruct (fingerprint_eqb_spec old h) as [->|Hne]; [reflexivity|].
        exfalso. assert (X : In p (modified_loop file_hashes current_hashes [])).
        { apply In_modified_loop. exists h. split; [exact I | congruence]. }
        now rewrite Hm in X.
      * exfalso. assert (X : In p (modified_loop file_hashes current_hashes [])).
        { apply In_modified_loop. exists h. split; [exact I | congruence]. }
        now rewrite Hm in X.
    + intros p I.
      destruct (in_dec string_dec p (PyDict.keys current_hashes)) as [J|N]; [exact J|].
      exfalso.
      assert (X : In (deleted_record p) (deleted_loop file_hashes current_hashes [])).
      { apply In_deleted_loop. now split. }
      now rewrite Hd in X.
  - intros [Hm Hd].
    assert (M : modified_loop file_hashes current_hashes [] = []).
    { destruct (modified_loop file_hashes current_hashes []) as [|p l] eqn:E;
        [reflexivity|].
      assert (X : In p (modified_loop file_hashes current_hashes []))
        by (rewrite E; now left).
      apply In_modified_loop in X as [h [I C]]. now apply Hm in I. }
    rewrite M. simpl. rewrite deleted_loop_filter. simpl.
    destruct (filter _ _) as [|p l] eqn:E; [reflexivity|].
    assert (X : In p (filter (fun p => negb (PyDict.contains current_hashes p))
                        (PyDict.keys file_hashes))) by (rewrite E; now left).
    apply filter_In in X as [I C]. apply Hd in I.
    apply dict_contains_true_iff in I. now rewrite I in C.
Qed.

(** An empty change list leaves no difference between the two snapshots as
    mappings, whatever the order of their keys. *)
Lemma changed_files_nil_same_mapping (file_hashes current_hashes : snapshot) :
  changed_files file_hashes current_hashes = [] ->
  PyDict.same_mapping file_hashes current_hashes.
Proof.
  intros H. apply changed_files_nil_iff in H as [Hm Hd]. intros k.
  destruct (PyDict.get current_hashes k) as [h|] eqn:G.
  - apply Hm. now apply dict_get_In.
  - apply dict_get_None_iff. intros I. apply Hd in I.
    now apply dict_get_None_iff in G.
Qed.

Lemma same_mapping_keys (d1 d2 : snapshot) :
  PyDict.same_mapping d1 d2 ->
  forall k, In k (PyDict.keys d1) <-> In k (PyDict.keys d2).
Proof.
  intros H k. rewrite <- !dict_contains_true_iff.
  unfold PyDict.contains. now rewrite (H k).
Qed.

(** The change list, in two parts: the paths of the changed items of
    [current_hashes], then the keys of [file_hashes] that [current_hashes]
    lacks. *)
Lemma changed_files_parts (file_hashes current_hashes : snapshot) :
  changed_files file_hashes current_hashes =
  (map modified_record
     (map fst (filter (fun item => is_changed file_hashes (fst item) (snd item))
                 (PyDict.items current_hashes)))
   ++ map deleted_record
        (filter (fun q => negb (PyDict.contains current_hashes q))
           (PyDict.keys file_hashes)))%list.
Proof.
  rewrite changed_files_app, modified_loop_filter, deleted_loop_filter.
  simpl. unfold modified_record. now rewrite map_id.
Qed.

Lemma In_modified_part (file_hashes current_hashes : snapshot) (p : string) :
  In p (map fst (filter (fun item => is_changed file_hashes (fst item) (snd item))
                   (PyDict.items current_hashes))) <->
  exists h, In (p, h) current_hashes /\ PyDict.get file_hashes p <> Some h.
Proof.
  rewrite <- In_modified_loop, modified_loop_filter. reflexivity.
Qed.

Lemma In_deleted_part (file_hashes current_hashes : snapshot) (p : string) :
  In p (filter (fun q => negb (PyDict.contains current_hashes q))
          (PyDict.keys file_hashes)) <->
  In p (PyDict.keys file_hashes) /\ ~ In p (PyDict.keys current_hashes).
Proof.
  rewrite filter_In, <- dict_contains_false_iff.
  now destruct (PyDict.contains current_hashes p).
Qed.

(** C2: the change list is the modified records of the paths [modified]
    followed by the deleted records of the paths [deleted].  A path that
    [current_hashes] holds with fingerprint [h] is among [modified] if and
    only if [file_hashes] does not hold the path or holds it with a
    fingerprint other than [h]; its record is then an element of the change
    list.  A path that is new falls under the first case and is reported
    like a changed one. *)
Theorem modified_record_iff
    (file_hashes current_hashes : snapshot) (p : string) (h : fingerprint) :
  PyDict.wf current_hashes ->
  PyDict.get current_hashes p = Some h ->
  let modified :=
    map fst (filter (fun item => is_changed file_hashes (fst item) (snd item))
               (PyDict.items current_hashes)) in
  let deleted :=
    filter (fun q => negb (PyDict.contains current_hashes q))
      (PyDict.keys file_hashes) in
  let absent_or_differs :=
    ~ In p (PyDict.keys file_hashes) \/
    exists old, PyDict.get file_hashes p = Some old /\ old <> h in
  changed_files file_hashes current_hashes =
    (map modified_record modified ++ map deleted_record deleted)%list /\
  (In p modified <-> absent_or_differs) /\
  (In (modified_record p) (changed_files file_hashes current_hashes) <->
   absent_or_differs \/ exists q, In q deleted /\ modified_record p = deleted_record q).
Proof.
  intros Hwf Hcur. cbv zeta.
  assert (M : In p (map fst (filter (fun item => is_changed file_hashes (fst item) (snd item))
                               (PyDict.items current_hashes))) <->
              ~ In p (PyDict.keys file_hashes) \/
              exists old, PyDict.get file_hashes p = Some old /\ old <> h).
  { rewrite In_modified_part. split.
    - intros [h' [I C]].
      apply (dict_In_get _ _ _ Hwf) in I.
      assert (h' = h) by congruence. subst h'.
      destruct (PyDict.get file_hashes p) as [old|] eqn:G.
      + right. exists old. split; [reflexivity | congruence].
      + left. now apply dict_get_None_iff.
    - intros [N | [old [G Hne]]]; exists h; (split; [now apply dict_get_In|]).
      + apply dict_get_None_iff in N. congruence.
      + congruence. }
  split; [apply changed_files_parts|]. split; [exact M|].
  rewrite changed_files_parts, in_app_iff, <- M. split.
  - intros [X|X].
    + left. apply in_map_iff in X as [x [E X]]. unfold modified_record in E.
      now subst x.
    + right. apply in_map_iff in X as [q [E X]]. now exists q.
  - intros [X|[q [X E]]].
    + left. now apply (in_map modified_record) in X.
    + right. rewrite E. now apply in_map.
Qed.

(** C3: the change list is the modified records of the changed items of
    [current_hashes], in its order, followed by the deleted records of the
    keys of [file_hashes] that [current_hashes] lacks, in the order of
    [file_hashes]; a path has a deleted record exactly when it is a key of
    [file_hashes] and not of [current_hashes]. *)
Theorem changed_files_modified_then_deleted (file_hashes current_hashes : snapshot) :
  let modified :=
    map fst (filter (fun item => is_changed file_hashes (fst item) (snd item))
               (PyDict.items current_hashes)) in
  let deleted :=
    filter (fun p => negb (PyDict.contains current_hashes p))
      (PyDict.keys file_hashes) in
  changed_files file_hashes current_hashes =
    (map modified_record modified ++ map deleted_record deleted)%list /\
  (forall p, In p deleted <->
             In p (PyDict.keys file_hashes) /\ ~ In p (PyDict.keys current_hashes)) /\
  (forall p, In (deleted_record p) (map deleted_record deleted) <-> In p deleted).
Proof.
  cbv zeta. split; [|split].
  - rewrite changed_files_app, modified_loop_filter, deleted_loop_filter.
    simpl. unfold modified_record. now rewrite map_id.
  - intros p. rewrite filter_In, <- dict_contains_false_iff.
    now destruct (PyDict.contains current_hashes p).
  - intros p. rewrite in_map_iff. split.
    + intros [q [E I]]. apply deleted_record_inj in E. now subst q.
    + intros I. now exists p.
Qed.

(** C5: the change list is the modified records of the paths [modified]
    followed by the deleted records of the paths [deleted].  For a path that
    both snapshots hold, two absent fingerprints put it in neither part, and
    an absent fingerprint on exactly one side puts it in [modified], so that
    its modified record is an element of the change list. *)
Theorem absent_fingerprint_cases
    (file_hashes current_hashes : snapshot) (p : string) (a b : fingerprint) :
  PyDict.wf current_hashes ->
  PyDict.get file_hashes p = Some a ->
  PyDict.get current_hashes p = Some b ->
  let modified :=
    map fst (filter (fun item => is_changed file_hashes (fst item) (snd item))
               (PyDict.items current_hashes)) in
  let deleted :=
    filter (fun q => negb (PyDict.contains current_hashes q))
      (PyDict.keys file_hashes) in
  changed_files file_hashes current_hashes =
    (map modified_record modified ++ map deleted_record deleted)%list /\
  (a = None /\ b = None -> ~ In p modified /\ ~ In p deleted) /\
  ((a = None /\ b <> None) \/ (a <> None /\ b = None) ->
   In p modified /\
   In (modified_record p) (changed_files file_hashes current_hashes)).
Proof.
  intros Hwf Ha Hb. cbv zeta. split; [apply changed_files_parts|]. split.
  - intros [-> ->]. split.
    + rewrite In_modified_part. intros [h [I C]].
      apply (dict_In_get _ _ _ Hwf) in I. congruence.
    + rewrite In_deleted_part. intros [_ N].
      apply dict_get_None_iff in N. congruence.
  - intros Hone.
    assert (M : In p (map fst (filter (fun item => is_changed file_hashes (fst item) (snd item))
                                 (PyDict.items current_hashes)))).
    { apply In_modified_part. exists b. split; [now apply dict_get_In|].
      rewrite Ha. intros [= ->]. destruct Hone as [[-> Hn]|[Hn ->]]; congruence. }
    split; [exact M|].
    rewrite changed_files_parts. apply in_or_app. left.
    now apply (in_map modified_record) in M.
Qed.

(** C7: a snapshot compared with itself gives the empty change list. *)
Theorem changed_files_self (S : snapshot) :
  PyDict.wf S -> changed_files S S = [].
Proof.
  intros Hwf. apply changed_files_nil_iff. split.
  - intros p h I. now apply dict_In_get.
  - tauto.
Qed.

(** ** Paths as strings *)

Lemma no_slash_cons (c : ascii) (s : string) :
  no_slash (String c s) -> c <> "/"%char /\ no_slash s.
Proof.
  unfold no_slash. simpl. intros H. split.
  - intros ->. apply H. now left.
  - intros I. apply H. now right.
Qed.

(** Two components followed by the end of the path or by a separator: where
    the strings agree, the components agree. *)
Lemma component_split (a b x y : string) :
  no_slash a -> no_slash b ->
  (x = "" \/ exists x', x = String "/" x') ->
  (y = "" \/ exists y', y = String "/" y') ->
  a ++ x = b ++ y -> a = b /\ x = y.
Proof.
  revert b. induction a as [|c a IH]; intros [|d b] Ha Hb Hx Hy E; simpl in E.
  - now split.
  - exfalso. apply no_slash_cons in Hb as [Hd _].
    destruct Hx as [->|[x' ->]]; [discriminate|]. injection E as E _. now subst d.
  - exfalso. apply no_slash_cons in Ha as [Hc _].
    destruct Hy as [->|[y' ->]]; [discriminate|]. injection E as E _. now subst c.
  - injection E as -> E.
    apply no_slash_cons in Ha as [_ Ha]. apply no_slash_cons in Hb as [_ Hb].
    destruct (IH b Ha Hb Hx Hy E) as [-> ->]. now split.
Qed.

(** [str] is one-to-one on relative paths. *)
Lemma str_path_inj (l1 l2 : list string) :
  Forall no_slash l1 -> Forall no_slash l2 ->
  l1 <> [] -> l2 <> [] ->
  str_path l1 = str_path l2 -> l1 = l2.
Proof.
  unfold str_path. revert l2.
  induction l1 as [|a l1 IH]; intros l2 H1 H2 N1 N2 E; [contradiction|].
  destruct l2 as [|b l2]; [contradiction|].
  inversion H1 as [|? ? Ha H1']; subst. inversion H2 as [|? ? Hb H2']; subst.
  destruct l1 as [|a' l1], l2 as [|b' l2].
  - simpl in E. now subst.
  - exfalso. simpl in E.
    destruct (component_split a b "" _ Ha Hb (or_introl eq_refl)
                (or_intror (ex_intro _ _ eq_refl))
                (eq_trans (append_nil_r a) E)) as [_ X].
    discriminate.
  - exfalso. simpl in E.
    destruct (component_split a b _ "" Ha Hb
                (or_intror (ex_intro _ _ eq_refl)) (or_introl eq_refl)
                (eq_trans E (eq_sym (append_nil_r b)))) as [_ X].
    discriminate.
  - change (a ++ "/" ++ String.concat "/" (a' :: l1) =
            b ++ "/" ++ String.concat "/" (b' :: l2)) in E.
    destruct (component_split a b _ _ Ha Hb
                (or_intror (ex_intro _ _ eq_refl))
                (or_intror (ex_intro _ _ eq_refl)) E) as [-> X].
    injection X as X. f_equal.
    apply IH; [assumption | assumption | discriminate | discriminate | exact X].
Qed.

Lemma relative_to_nonempty (e : entry) : relative_to e <> [].
Proof. unfold relative_to. destruct (dirs e); discriminate. Qed.

(** In a well-formed directory state the key of the snapshot names the
    entry. *)
Lemma entry_of_key_unique (D : dirstate) (e1 e2 : entry) :
  wf_dirstate D -> In e1 D -> In e2 D ->
  str_path (relative_to e1) = str_path (relative_to e2) -> e1 = e2.
Proof.
  intros [Hnd Hns] I1 I2 E.
  assert (R : relative_to e1 = relative_to e2).
  { rewrite Forall_forall in Hns.
    apply str_path_inj; auto using relative_to_nonempty. }
  clear E Hns. induction D as [|e D IH]; [contradiction|].
  simpl in Hnd. inversion Hnd as [|? ? Hni Hnd']; subst.
  destruct I1 as [->|I1], I2 as [->|I2].
  - reflexivity.
  - exfalso. apply Hni. rewrite R. now apply in_map.
  - exfalso. apply Hni. rewrite <- R. now apply in_map.
  - now apply IH.
Qed.

Lemma wf_dirstate_perm (D1 D2 : dirstate) :
  Permutation D1 D2 -> wf_dirstate D1 -> wf_dirstate D2.
Proof.
  intros P [Hnd Hns]. split.
  - apply (Permutation_NoDup (l := map relative_to D1)); [|exact Hnd].
    now apply Permutation_map.
  - apply (Permutation_Forall P Hns).
Qed.

(** What the walk reaches does not depend on the order of the listing. *)
Lemma listed_perm (D1 D2 : dirstate) (e : entry) :
  Permutation D1 D2 -> listed D1 e = listed D2 e.
Proof.
  intros P. unfold listed, below_unlistable. f_equal.
  apply eq_true_iff_eq. rewrite !existsb_exists. split.
  - intros [a [I H]]. exists a. split; [now apply (Permutation_in _ P) | exact H].
  - intros [a [I H]]. exists a.
    split; [now apply (Permutation_in _ (Permutation_sym P)) | exact H].
Qed.

(** ** The snapshot *)

Section SnapshotFacts.

Variable md5_hexdigest : list Byte.byte -> string.
Variable WATCH_EXTENSIONS : list string.
Variable IGNORE_FILES : list string.

Local Abbreviation hash_of := (get_file_hash md5_hexdigest).
Local Abbreviation snap := (get_all_watched_files md5_hexdigest WATCH_EXTENSIONS IGNORE_FILES).
Local Abbreviation is_watched := (watched WATCH_EXTENSIONS IGNORE_FILES).
Local Abbreviation key e := (str_path (relative_to e)).

(** The assignment [files[str(rel_path)] = get_file_hash(filepath)]. *)
Local Abbreviation put :=
  (fun (files : snapshot) (e : entry) => PyDict.set files (key e) (hash_of (node e))).

(** The entries that reach the assignment, in the order of the two loops. *)
Local Abbreviation visited D :=
  (flat_map (fun ext => filter (fun e => negb (ignored IGNORE_FILES e)) (rglob D ext))
     WATCH_EXTENSIONS).

Lemma fold_visit_put (l : list entry) (files : snapshot) :
  fold_left (visit md5_hexdigest IGNORE_FILES) l files =
  fold_left put (filter (fun e => negb (ignored IGNORE_FILES e)) l) files.
Proof.
  revert files. induction l as [|e l IH]; intros files; simpl; [reflexivity|].
  unfold visit at 2. destruct (ignored IGNORE_FILES e); simpl; apply IH.
Qed.

Lemma snapshot_as_assignments (D : dirstate) :
  snap D = fold_left put (visited D) PyDict.empty.
Proof.
  unfold get_all_watched_files. generalize (@PyDict.empty fingerprint) as files.
  induction WATCH_EXTENSIONS as [|ext exts IH]; intros files; simpl; [reflexivity|].
  rewrite fold_left_app, IH. f_equal. unfold scan_ext. apply fold_visit_put.
Qed.

Lemma In_visited (D : dirstate) (e : entry) :
  In e (visited D) <-> In e D /\ listed D e = true /\ is_watched e = true.
Proof.
  rewrite in_flat_map. unfold watched, rglob.
  rewrite andb_true_iff, existsb_exists, negb_true_iff. split.
  - intros [ext [Hext I]]. apply filter_In in I as [I Hign].
    apply filter_In in I as [I Hend]. apply andb_true_iff in Hend as [Hl Hend].
    split; [exact I|]. split; [exact Hl|].
    split; [now exists ext | now apply negb_true_iff].
  - intros [I [Hl [[ext [Hext Hend]] Hign]]]. exists ext. split; [exact Hext|].
    apply filter_In. split; [|now apply negb_true_iff].
    apply filter_In. split; [exact I|]. now rewrite Hl, Hend.
Qed.

Lemma keys_fold_put (l : list entry) (files : snapshot) (k : string) :
  In k (PyDict.keys (fold_left put l files)) <->
  In k (PyDict.keys files) \/ exists e, In e l /\ key e = k.
Proof.
  revert files. induction l as [|e l IH]; intros files; simpl.
  - split; [now left | intros [H|[e [[] _]]]; exact H].
  - rewrite IH, dict_keys_set. split.
    + intros [H|[e' [I E]]].
      * destruct (PyDict.contains files (key e)); [now left|].
        apply in_app_or in H as [H|[<-|[]]]; [now left|].
        right. exists e. split; [now left | reflexivity].
      * right. exists e'. split; [now right | exact E].
    + intros [H|[e' [[<-|I] E]]].
      * left. destruct (PyDict.contains files (key e)); [exact H|].
        apply in_or_app. now left.
      * left. destruct (PyDict.contains files (key e)) eqn:C.
        -- apply dict_contains_true_iff in C. now rewrite <- E.
        -- apply in_or_app. right. now left.
      * right. now exists e'.
Qed.

Lemma wf_fold_put (l : list entry) (files : snapshot) :
  PyDict.wf files -> PyDict.wf (fold_left put l files).
Proof.
  revert files. induction l as [|e l IH]; intros files H; simpl; [exact H|].
  apply IH. now apply dict_wf_set.
Qed.

Lemma get_fold_put (l : list entry) (files : snapshot) (k : string) (v : fingerprint) :
  PyDict.get (fold_left put l files) k = Some v ->
  PyDict.get files k = Some v \/
  exists e, In e l /\ key e = k /\ v = hash_of (node e).
Proof.
  revert files. induction l as [|e l IH]; intros files; simpl; [now left|].
  intros H. apply IH in H as [H|[e' [I [E Hv]]]].
  - destruct (string_dec (key e) k) as [<-|Hne].
    + rewrite dict_get_set_eq in H. injection H as <-.
      right. exists e. split; [now left | now split].
    + rewrite dict_get_set_ne in H by exact Hne. now left.
  - right. exists e'. split; [now right | now split].
Qed.

(** The keys of a snapshot are the path strings of the entries that the walk
    reaches and the watch set selects, files and directories alike. *)
Lemma snapshot_keys_iff (D : dirstate) (k : string) :
  In k (PyDict.keys (snap D)) <->
  exists e, In e D /\ listed D e = true /\ is_watched e = true /\ key e = k.
Proof.
  rewrite snapshot_as_assignments, keys_fold_put. split.
  - intros [[]|[e [I E]]]. apply In_visited in I as [I [L W]]. now exists e.
  - intros [e [I [L [W E]]]]. right. exists e. split; [|exact E].
    apply In_visited. now split.
Qed.

Lemma snapshot_wf (D : dirstate) : PyDict.wf (snap D).
Proof. rewrite snapshot_as_assignments. apply wf_fold_put, dict_wf_empty. Qed.

Lemma snapshot_get_inv (D : dirstate) (k : string) (v : fingerprint) :
  PyDict.get (snap D) k = Some v ->
  exists e, In e D /\ listed D e = true /\ is_watched e = true /\
            key e = k /\ v = hash_of (node e).
Proof.
  rewrite snapshot_as_assignments. intros H.
  apply get_fold_put in H as [H|[e [I [E Hv]]]]; [discriminate|].
  apply In_visited in I as [I [L W]]. now exists e.
Qed.

(** In a well-formed directory state every entry that the walk reaches and
    the watch set selects is recorded under its path string with the
    fingerprint of what it points at. *)
Lemma snapshot_get (D : dirstate) (e : entry) :
  wf_dirstate D -> In e D -> listed D e = true -> is_watched e = true ->
  PyDict.get (snap D) (key e) = Some (hash_of (node e)).
Proof.
  intros Hwf I L W.
  destruct (PyDict.get (snap D) (key e)) as [v|] eqn:G.
  - apply snapshot_get_inv in G as [e' [I' [_ [W' [E ->]]]]].
    now rewrite (entry_of_key_unique D e' e Hwf I' I E).
  - exfalso. apply dict_get_None_iff in G. apply G.
    apply snapshot_keys_iff. now exists e.
Qed.

(** Two listings of the same entries give the same mapping. *)
Lemma snapshot_perm (D1 D2 : dirstate) :
  wf_dirstate D1 -> Permutation D1 D2 ->
  PyDict.same_mapping (snap D1) (snap D2).
Proof.
  intros Hwf1 P k.
  assert (Hwf2 : wf_dirstate D2) by now apply (wf_dirstate_perm D1).
  destruct (PyDict.get (snap D1) k) as [v|] eqn:G1.
  - apply snapshot_get_inv in G1 as [e [I [L [W [<- ->]]]]].
    symmetry. apply snapshot_get; [exact Hwf2 | | | exact W].
    + now apply (Permutation_in _ P).
    + now rewrite <- (listed_perm D1 D2 e P).
  - destruct (PyDict.get (snap D2) k) as [v|] eqn:G2; [|reflexivity].
    exfalso. apply snapshot_get_inv in G2 as [e [I [L [W [<- ->]]]]].
    apply dict_get_None_iff in G1. apply G1. apply snapshot_keys_iff.
    exists e. split; [now apply (Permutation_in _ (Permutation_sym P))|].
    split; [now rewrite (listed_perm D1 D2 e P) | now split].
Qed.

End SnapshotFacts.

(** C1: on a tree that holds a directory named like a script, the snapshot
    of the script's own watch set has that directory's path among its keys,
    with an absent fingerprint, although no file is there. *)
Theorem snapshot_holds_directory :
  let files :=
    get_all_watched_files sample_digest Script.WATCH_EXTENSIONS Script.IGNORE_FILES
      sample_tree in
  PyDict.keys files =
    ["popup.js"; "node_modules/chart.js"; "node_modules/chart.js/index.js";
     "manifest.json"] /\
  PyDict.get files "node_modules/chart.js" = Some None /\
  (forall e, In e sample_tree ->
             str_path (relative_to e) = "node_modules/chart.js" ->
             is_file (node e) = false).
Proof.
  cbv zeta. split; [reflexivity|]. split; [reflexivity|].
  intros e I E. simpl in I.
  repeat (destruct I as [<-|I]; [try reflexivity; discriminate E|]).
  contradiction.
Qed.



(** C8: two scans of the same directory state, in whatever order the entries
    are listed each time, give snapshots with the same keys and the same
    fingerprint for every key. *)
Theorem snapshot_of_unchanged_directory
    (md5_hexdigest : list Byte.byte -> string)
    (WATCH_EXTENSIONS IGNORE_FILES : list string)
    (D1 D2 : dirstate) :
  wf_dirstate D1 ->
  Permutation D1 D2 ->
  let first := get_all_watched_files md5_hexdigest WATCH_EXTENSIONS IGNORE_FILES D1 in
  let second := get_all_watched_files md5_hexdigest WATCH_EXTENSIONS IGNORE_FILES D2 in
  (forall k, In k (PyDict.keys first) <-> In k (PyDict.keys second)) /\
  (forall k, PyDict.get first k = PyDict.get second k).
Proof.
  intros Hwf P. cbv zeta.
  pose proof (snapshot_perm md5_hexdigest WATCH_EXTENSIONS IGNORE_FILES D1 D2 Hwf P) as S.
  split; [now apply same_mapping_keys | exact S].
Qed.

(** ** The watch loop *)

Section LoopFacts.

Variable md5_hexdigest : list Byte.byte -> string.
Variable WATCH_EXTENSIONS : list string.
Variable IGNORE_FILES : list string.

Local Abbreviation snap := (get_all_watched_files md5_hexdigest WATCH_EXTENSIONS IGNORE_FILES).
Local Abbreviation cycle' := (cycle md5_hexdigest WATCH_EXTENSIONS IGNORE_FILES).
Local Abbreviation step' := (step md5_hexdigest WATCH_EXTENSIONS IGNORE_FILES).
Local Abbreviation run' := (run md5_hexdigest WATCH_EXTENSIONS IGNORE_FILES).

Lemma cycle_changed (file_hashes : snapshot) (D : dirstate) :
  changed_files file_hashes (snap D) <> [] ->
  cycle' file_hashes D = (report (changed_files file_hashes (snap D)), snap D).
Proof.
  unfold cycle. destruct (changed_files file_hashes (snap D)); [congruence | reflexivity].
Qed.

Lemma cycle_unchanged (file_hashes : snapshot) (D : dirstate) :
  changed_files file_hashes (snap D) = [] ->
  cycle' file_hashes D = ([], file_hashes).
Proof. unfold cycle. now intros ->. Qed.

(** Whatever the cycle does, the stored snapshot agrees with the current one
    as a mapping. *)
Lemma cycle_stored_same_mapping (file_hashes : snapshot) (D : dirstate) :
  PyDict.same_mapping (snd (cycle' file_hashes D)) (snap D).
Proof.
  destruct (changed_files file_hashes (snap D)) as [|c l] eqn:E.
  - rewrite cycle_unchanged by exact E. simpl.
    now apply changed_files_nil_same_mapping.
  - rewrite cycle_changed by (rewrite E; discriminate). simpl. intros k. reflexivity.
Qed.

Lemma step_tick (p : process) (file_hashes : snapshot) (D : dirstate) :
  state p = Watching file_hashes ->
  step' p (Tick D) =
  {| state := Watching (snd (cycle' file_hashes D));
     stdout := (stdout p ++ fst (cycle' file_hashes D))%list |}.
Proof.
  intros H. unfold step. rewrite H. now destruct (cycle' file_hashes D).
Qed.








(** Two snapshots that are the same mapping give the empty change list. *)
Lemma same_mapping_changed_files_nil (file_hashes current_hashes : snapshot) :
  PyDict.wf current_hashes ->
  PyDict.same_mapping file_hashes current_hashes ->
  changed_files file_hashes current_hashes = [].
Proof.
  intros Hwf S. apply changed_files_nil_iff. split.
  - intros q h I. rewrite (S q). now apply dict_In_get.
  - intros q. now apply same_mapping_keys.
Qed.

(** As long as the directory state stays what the baseline scan saw, in
    whatever order it is listed, a cycle prints nothing and keeps the
    baseline. *)
Lemma quiet_on_unchanged_directory (D0 D : dirstate) :
  wf_dirstate D0 -> Permutation D0 D ->
  cycle' (snap D0) D = ([], snap D0).
Proof.
  intros Hwf P. apply cycle_unchanged.
  apply same_mapping_changed_files_nil; [apply snapshot_wf|].
  now apply snapshot_perm.
Qed.

End LoopFacts.




(** C10: an empty change list means that the two snapshots are the same
    mapping (same keys, same fingerprint for every key); so the snapshot the
    loop stores, replaced only after a change, is the same mapping as the one
    stored by replacing it in every cycle. *)
Theorem stored_snapshot_policy
    (md5_hexdigest : list Byte.byte -> string)
    (WATCH_EXTENSIONS IGNORE_FILES : list string) :
  (forall file_hashes current_hashes : snapshot,
     changed_files file_hashes current_hashes = [] ->
     (forall k, In k (PyDict.keys file_hashes) <-> In k (PyDict.keys current_hashes)) /\
     (forall k, PyDict.get file_hashes k = PyDict.get current_hashes k)) /\
  (forall (file_hashes : snapshot) (Ds : list dirstate),
     PyDict.same_mapping
       (stored md5_hexdigest WATCH_EXTENSIONS IGNORE_FILES file_hashes Ds)
       (stored_replace_always md5_hexdigest WATCH_EXTENSIONS IGNORE_FILES file_hashes Ds)).
Proof.
  split.
  - intros file_hashes current_hashes H.
    apply changed_files_nil_same_mapping in H.
    split; [now apply same_mapping_keys | exact H].
  - intros file_hashes Ds. unfold stored, stored_replace_always.
    induction Ds as [|D Ds _] using rev_ind.
    + intros k. reflexivity.
    + rewrite !fold_left_app. simpl. apply cycle_stored_same_mapping.
Qed.

(** ** The properties on the sample data *)

Ltac prove_nodup :=
  repeat (constructor; [simpl; intuition discriminate|]); constructor.

Lemma sample_previous_wf : PyDict.wf sample_previous.
Proof. unfold PyDict.wf, sample_previous. simpl. prove_nodup. Qed.

Lemma sample_current_wf : PyDict.wf sample_current.
Proof. unfold PyDict.wf, sample_current. simpl. prove_nodup. Qed.

Lemma sample_tree_wf : wf_dirstate sample_tree.
Proof.
  split.
  - unfold sample_tree, relative_to. simpl. prove_nodup.
  - unfold sample_tree, relative_to. simpl.
    repeat constructor; unfold no_slash; simpl; intuition discriminate.
Qed.

Lemma modified_record_iff_witness :
  PyDict.wf sample_current /\
  PyDict.get sample_current "b.css" = Some (Some "4") /\
  changed_files sample_previous sample_current =
    ["a.js"; "b.css"; "e.js"; "c.html (deleted)"] /\
  (In (modified_record "b.css") (changed_files sample_previous sample_current) <->
   (~ In "b.css" (PyDict.keys sample_previous) \/
    exists old, PyDict.get sample_previous "b.css" = Some old /\ old <> Some "4") \/
   exists q, In q ["c.html"] /\ modified_record "b.css" = deleted_record q).
Proof.
  split; [exact sample_current_wf|]. split; [reflexivity|].
  destruct (modified_record_iff sample_previous sample_current "b.css" (Some "4")
              sample_current_wf eq_refl) as [Hlist [_ Hin]].
  split; [exact Hlist | exact Hin].
Defined.

Lemma absent_fingerprint_cases_witness :
  PyDict.wf sample_current /\
  PyDict.get sample_previous "e.js" = Some None /\
  PyDict.get sample_current "e.js" = Some (Some "5") /\
  In (modified_record "e.js") (changed_files sample_previous sample_current).
Proof.
  split; [exact sample_current_wf|]. split; [reflexivity|]. split; [reflexivity|].
  destruct (absent_fingerprint_cases sample_previous sample_current "e.js" None (Some "5")
              sample_current_wf eq_refl eq_refl) as [_ [_ Hone]].
  apply Hone. left. split; [reflexivity | discriminate].
Defined.

Lemma changed_files_self_witness :
  PyDict.wf sample_current /\ changed_files sample_current sample_current = [].
Proof.
  split; [exact sample_current_wf|].
  apply (changed_files_self sample_current sample_current_wf).
Defined.


Lemma snapshot_of_unchanged_directory_witness :
  wf_dirstate sample_tree /\
  Permutation sample_tree sample_tree_reordered /\
  forall k,
    PyDict.get
      (get_all_watched_files sample_digest Script.WATCH_EXTENSIONS Script.IGNORE_FILES
         sample_tree) k =
    PyDict.get
      (get_all_watched_files sample_digest Script.WATCH_EXTENSIONS Script.IGNORE_FILES
         sample_tree_reordered) k.
Proof.
  split; [exact sample_tree_wf|]. split; [apply Permutation_rev|].
  apply (snapshot_of_unchanged_directory sample_digest
           Script.WATCH_EXTENSIONS Script.IGNORE_FILES
           sample_tree sample_tree_reordered sample_tree_wf
           (Permutation_rev sample_tree)).
Defined.



(** ** The cases the specification lists *)

(** A new file [a.js] gives one modified record. *)
Example added_file_is_modified :
  changed_files [("b.css", Some "1")] [("b.css", Some "1"); ("a.js", Some "md5:x")]
  = [modified_record "a.js"].
Proof. reflexivity. Qed.

(** A changed [b.css] gives its modified record and no deleted record. *)
Example changed_file_is_modified :
  changed_files [("b.css", Some "1")] [("b.css", Some "2")] = [modified_record "b.css"].
Proof. reflexivity. Qed.

(** A deleted [c.html] gives one deleted record. *)
Example deleted_file_is_deleted :
  changed_files [("b.css", Some "1"); ("c.html", Some "2")] [("b.css", Some "1")]
  = [deleted_record "c.html"].
Proof. reflexivity. Qed.

(** An unchanged file gives no record. *)
Example unchanged_file_no_record :
  changed_files [("b.css", Some "1")] [("b.css", Some "1")] = [].
Proof. reflexivity. Qed.

(** Modified records come first, in the order of the current snapshot, then
    the deleted records, in the order of the previous one. *)
Example changed_files_sample :
  changed_files sample_previous sample_current
  = ["a.js"; "b.css"; "e.js"; "c.html (deleted)"].
Proof. reflexivity. Qed.

(** The pattern of one extension does not match the names of another. *)
Example endswith_cases :
  endswith "popup.js" ".js" = true /\
  endswith "manifest.json" ".js" = false /\
  endswith "manifest.json" ".json" = true /\
  endswith "js" ".js" = false /\
  endswith ".css" ".css" = true /\
  endswith "Popup.JS" ".js" = false.
Proof. repeat split. Qed.

(** The script's own name is ignored and unwatched extensions are skipped. *)
Example snapshot_skips_ignored_and_unwatched :
  get_all_watched_files sample_digest Script.WATCH_EXTENSIONS Script.IGNORE_FILES
    [ mkEntry [] "dev-watch.py" (RegularFile (bytes_of "#!"));
      mkEntry [] "README.md" (RegularFile (bytes_of "doc"));
      mkEntry ["scripts"] "create-icons.py" (RegularFile (bytes_of "#!"));
      mkEntry ["src"] "popup.html" (RegularFile (bytes_of "h")) ]
  = [("src/popup.html", Some "md5:h")].
Proof. reflexivity. Qed.

(** * Further properties of the watcher *)

(** ** Suffixes *)

Lemma append_same_length_r (s t u v : string) :
  String.length u = String.length v -> s ++ u = t ++ v -> s = t /\ u = v.
Proof.
  intros L. revert t. induction s as [|c s IH]; intros [|d t] E; simpl in E.
  - now split.
  - exfalso. subst u. simpl in L. rewrite append_length in L. lia.
  - exfalso. subst v. simpl in L. rewrite append_length in L. lia.
  - injection E as -> E. destruct (IH t E) as [-> ->]. now split.
Qed.

Lemma substring_all (s : string) : substring 0 (String.length s) s = s.
Proof. induction s as [|c s IH]; simpl; [reflexivity | now rewrite IH]. Qed.

Lemma substring_app_r (r e : string) :
  substring (String.length r) (String.length e) (r ++ e) = e.
Proof. induction r as [|c r IH]; simpl; [apply substring_all | exact IH]. Qed.

Lemma substring_tail (s : string) (k m : nat) :
  k + m = String.length s -> exists pre, s = pre ++ substring k m s.
Proof.
  revert k. induction s as [|c s IH]; intros k H; simpl in H.
  - assert (k = 0) by lia. assert (m = 0) by lia. subst. now exists "".
  - destruct k as [|k].
    + simpl in H. subst m. exists "". simpl. now rewrite substring_all.
    + simpl. destruct (IH k) as [pre E]; [lia|].
      exists (String c pre). simpl. now rewrite <- E.
Qed.

(** [endswith] holds exactly of the strings that are something followed by
    the suffix. *)
Lemma endswith_iff (s suffix : string) :
  endswith s suffix = true <-> exists pre, s = pre ++ suffix.
Proof.
  unfold endswith. rewrite andb_true_iff, Nat.leb_le, String.eqb_eq. split.
  - intros [L E].
    destruct (substring_tail s (String.length s - String.length suffix)
                (String.length suffix)) as [pre P]; [lia|].
    exists pre. now rewrite E in P.
  - intros [pre ->]. rewrite append_length. split; [lia|].
    replace (String.length pre + String.length suffix - String.length suffix)
      with (String.length pre) by lia.
    apply substring_app_r.
Qed.

(** Of two suffixes of one string, the shorter is a suffix of the longer. *)
Lemma suffixes_nested (p1 p2 e1 e2 : string) :
  p1 ++ e1 = p2 ++ e2 -> String.length e1 <= String.length e2 ->
  exists r, e2 = r ++ e1.
Proof.
  revert p1. induction p2 as [|c p2 IH]; intros p1 E L; simpl in E.
  - now exists p1.
  - destruct p1 as [|d p1]; simpl in E.
    + exfalso. subst e1. simpl in L. rewrite append_length in L. lia.
    + injection E as _ E. now apply (IH p1).
Qed.

Lemma endswith_two (s a b : string) :
  endswith s a = true -> endswith s b = true ->
  endswith a b = true \/ endswith b a = true.
Proof.
  rewrite !endswith_iff. intros [p1 E1] [p2 E2]. subst s.
  destruct (Nat.le_ge_cases (String.length a) (String.length b)) as [L|L].
  - right. now apply (suffixes_nested p1 p2).
  - left. now apply (suffixes_nested p2 p1).
Qed.

Lemma append_assoc (a b c : string) : (a ++ b) ++ c = a ++ b ++ c.
Proof. induction a as [|x a IH]; simpl; [reflexivity | now rewrite IH]. Qed.

Lemma endswith_trans (s a b : string) :
  endswith s a = true -> endswith a b = true -> endswith s b = true.
Proof.
  rewrite !endswith_iff. intros [p ->] [q ->]. exists (p ++ q).
  now rewrite append_assoc.
Qed.

(** The path string ends with the name of the entry. *)
Lemma str_path_endswith_name (ds : list string) (n : string) :
  endswith (str_path (ds ++ [n])%list) n = true.
Proof.
  apply endswith_iff. unfold str_path.
  induction ds as [|d ds [pre IH]]; simpl.
  - now exists "".
  - destruct (ds ++ [n])%list as [|x l] eqn:E.
    + destruct ds; discriminate.
    + exists (d ++ "/" ++ pre). rewrite IH. now rewrite !append_assoc.
Qed.

(** ** More on the change list *)

Lemma NoDup_map_filter {A B : Type} (f : A -> B) (g : A -> bool) (l : list A) :
  NoDup (map f l) -> NoDup (map f (filter g l)).
Proof.
  induction l as [|a l IH]; simpl; intros H; [constructor|].
  inversion H as [|? ? Hni Hnd]; subst.
  destruct (g a); simpl; [|now apply IH].
  constructor; [|now apply IH].
  intros I. apply Hni. apply in_map_iff in I as [x [E I]].
  apply filter_In in I as [I _]. apply in_map_iff. now exists x.
Qed.

Lemma NoDup_map_injective {A B : Type} (f : A -> B) (l : list A) :
  (forall x y, f x = f y -> x = y) -> NoDup l -> NoDup (map f l).
Proof.
  intros Hinj. induction l as [|a l IH]; simpl; intros H; [constructor|].
  inversion H as [|? ? Hni Hnd]; subst. constructor; [|now apply IH].
  intros I. apply in_map_iff in I as [x [E I]]. apply Hinj in E. now subst x.
Qed.

Lemma NoDup_app_disjoint {A : Type} (l1 l2 : list A) :
  NoDup (l1 ++ l2) -> forall x, In x l1 -> ~ In x l2.
Proof.
  induction l1 as [|a l1 IH]; simpl; intros H x I; [contradiction|].
  inversion H as [|? ? Hni Hnd]; subst. destruct I as [->|I].
  - intros J. apply Hni. apply in_or_app. now right.
  - now apply IH.
Qed.

Lemma modified_loop_keys (file_hashes current_hashes : snapshot) (p : string) :
  In p (modified_loop file_hashes current_hashes []) ->
  In p (PyDict.keys current_hashes).
Proof.
  intros I. apply In_modified_loop in I as [h [I _]].
  change p with (fst (p, h)). now apply in_map.
Qed.

Lemma deleted_loop_records (file_hashes current_hashes : snapshot) (s : string) :
  In s (deleted_loop file_hashes current_hashes []) ->
  exists q, s = deleted_record q /\ In q (PyDict.keys file_hashes) /\
            ~ In q (PyDict.keys current_hashes).
Proof.
  intros I. rewrite deleted_loop_filter in I. simpl in I.
  apply in_map_iff in I as [q [<- I]]. exists q. split; [reflexivity|].
  apply filter_In in I as [I C]. split; [exact I|].
  apply dict_contains_false_iff. now destruct (PyDict.contains current_hashes q).
Qed.

(** X1: in the change list of two dictionaries no modified record and no
    deleted record is repeated, and no path has both a modified and a deleted
    record. *)
Theorem change_records_distinct (file_hashes current_hashes : snapshot) :
  PyDict.wf file_hashes ->
  PyDict.wf current_hashes ->
  NoDup (modified_loop file_hashes current_hashes []) /\
  NoDup (deleted_loop file_hashes current_hashes []) /\
  (forall p, In (modified_record p) (modified_loop file_hashes current_hashes []) ->
             ~ In (deleted_record p) (deleted_loop file_hashes current_hashes [])).
Proof.
  intros Hp Hc. split; [|split].
  - rewrite modified_loop_filter. simpl. now apply NoDup_map_filter.
  - rewrite deleted_loop_filter. simpl.
    apply NoDup_map_injective; [exact deleted_record_inj|].
    now apply NoDup_filter.
  - intros p Im Id. apply modified_loop_keys in Im.
    apply In_deleted_loop in Id as [_ N]. now apply N.
Qed.

(** X2: for a dictionary [current_hashes], the change list is empty if
    and only if the two snapshots hold the same keys with the same
    fingerprints, in whatever order. *)
Theorem changed_files_nil_iff_same_mapping (file_hashes current_hashes : snapshot) :
  PyDict.wf current_hashes ->
  changed_files file_hashes current_hashes = [] <->
  PyDict.same_mapping file_hashes current_hashes.
Proof.
  intros Hwf. split.
  - apply changed_files_nil_same_mapping.
  - now apply same_mapping_changed_files_nil.
Qed.

(** ** More on the snapshot *)

Section SnapshotMore.

Variable md5_hexdigest : list Byte.byte -> string.
Variable WATCH_EXTENSIONS : list string.
Variable IGNORE_FILES : list string.

Local Abbreviation hash_of := (get_file_hash md5_hexdigest).
Local Abbreviation snap := (get_all_watched_files md5_hexdigest WATCH_EXTENSIONS IGNORE_FILES).
Local Abbreviation is_watched := (watched WATCH_EXTENSIONS IGNORE_FILES).
Local Abbreviation key e := (str_path (relative_to e)).
Local Abbreviation put :=
  (fun (files : snapshot) (e : entry) => PyDict.set files (key e) (hash_of (node e))).
Local Abbreviation visited D :=
  (flat_map (fun ext => filter (fun e => negb (ignored IGNORE_FILES e)) (rglob D ext))
     WATCH_EXTENSIONS).

Lemma ignored_true_iff (e : entry) :
  ignored IGNORE_FILES e = true <-> In (name e) IGNORE_FILES.
Proof.
  unfold ignored. rewrite existsb_exists. split.
  - intros [n [I E]]. apply String.eqb_eq in E. now subst n.
  - intros I. exists (name e). split; [exact I | apply String.eqb_refl].
Qed.

Lemma watched_true_iff (e : entry) :
  is_watched e = true <->
  (exists ext, In ext WATCH_EXTENSIONS /\ endswith (name e) ext = true) /\
  ~ In (name e) IGNORE_FILES.
Proof.
  unfold watched. rewrite andb_true_iff, existsb_exists, negb_true_iff.
  rewrite <- ignored_true_iff. destruct (ignored IGNORE_FILES e); intuition congruence.
Qed.



Lemma wf_dirstate_tail (e : entry) (D : dirstate) :
  wf_dirstate (e :: D) -> wf_dirstate D.
Proof.
  intros [Hnd Hns]. simpl in Hnd.
  inversion Hnd; subst. inversion Hns; subst. now split.
Qed.

(** Distinct entries of a well-formed directory state have distinct path
    strings. *)
Lemma keys_of_entries_nodup (D : dirstate) :
  wf_dirstate D -> NoDup (map (fun e => key e) D).
Proof.
  induction D as [|e D IH]; intros Hwf; simpl; [constructor|].
  constructor; [|apply IH; now apply (wf_dirstate_tail e)].
  intros I. apply in_map_iff in I as [e' [E I]].
  assert (X : e' = e).
  { apply (entry_of_key_unique (e :: D)); [exact Hwf | now right | now left | exact E]. }
  subst e'. destruct Hwf as [Hnd _]. simpl in Hnd.
  inversion Hnd as [|? ? Hni _]; subst. apply Hni. now apply in_map.
Qed.

Lemma keys_fold_put_fresh (l : list entry) (files : snapshot) :
  NoDup (PyDict.keys files ++ map (fun e => key e) l) ->
  PyDict.keys (fold_left put l files) = (PyDict.keys files ++ map (fun e => key e) l)%list.
Proof.
  revert files. induction l as [|e l IH]; intros files H; simpl.
  - now rewrite app_nil_r.
  - assert (C : PyDict.contains files (key e) = false).
    { apply dict_contains_false_iff. intros I.
      apply (NoDup_app_disjoint _ _ H (key e) I). now left. }
    assert (K : PyDict.keys (PyDict.set files (key e) (hash_of (node e))) =
                (PyDict.keys files ++ [key e])%list)
      by (rewrite dict_keys_set; now rewrite C).
    rewrite IH; rewrite K, <- app_assoc; [reflexivity | exact H].
Qed.

Lemma fold_visit_no_ignore (l : list entry) (files : snapshot) :
  (forall e, In e l -> ignored IGNORE_FILES e = false) ->
  fold_left (visit md5_hexdigest IGNORE_FILES) l files =
  fold_left (visit md5_hexdigest []) l files.
Proof.
  revert files. induction l as [|e l IH]; intros files H; simpl; [reflexivity|].
  rewrite IH by (intros x I; apply H; now right).
  f_equal. unfold visit. rewrite (H e) by now left. reflexivity.
Qed.

End SnapshotMore.

Lemma visited_keys_nodup (IGNORE_FILES exts : list string) (D : dirstate) :
  suffix_free exts -> wf_dirstate D ->
  NoDup (map (fun e => str_path (relative_to e))
           (flat_map (fun ext => filter (fun e => negb (ignored IGNORE_FILES e))
                                   (rglob D ext)) exts)).
Proof.
  intros Hsf Hwf. induction Hsf as [|a l Ha Hl IH]; simpl; [constructor|].
  rewrite map_app. apply NoDup_app.
  - unfold rglob. do 2 apply NoDup_map_filter. now apply keys_of_entries_nodup.
  - exact IH.
  - intros k I1 I2.
    apply in_map_iff in I1 as [e1 [E1 I1]].
    apply filter_In in I1 as [I1 _]. apply filter_In in I1 as [I1 M1].
    apply andb_true_iff in M1 as [_ M1].
    apply in_map_iff in I2 as [e2 [E2 I2]].
    apply in_flat_map in I2 as [b [Hb I2]].
    apply filter_In in I2 as [I2 _]. apply filter_In in I2 as [I2 M2].
    apply andb_true_iff in M2 as [_ M2].
    assert (X : e1 = e2)
      by (apply (entry_of_key_unique D); [assumption..|congruence]).
    subst e2. rewrite Forall_forall in Ha. destruct (Ha b Hb) as [F1 F2].
    destruct (endswith_two _ _ _ M1 M2); congruence.
Qed.

Lemma snapshot_key_endswith
    (md5_hexdigest : list Byte.byte -> string)
    (WATCH_EXTENSIONS IGNORE_FILES : list string) (D : dirstate) (k : string) :
  In k (PyDict.keys (get_all_watched_files md5_hexdigest WATCH_EXTENSIONS IGNORE_FILES D)) ->
  exists ext, In ext WATCH_EXTENSIONS /\ endswith k ext = true.
Proof.
  intros I. apply snapshot_keys_iff in I as [e [_ [_ [W <-]]]].
  apply watched_true_iff in W as [[ext [Hext M]] _].
  exists ext. split; [exact Hext|].
  apply (endswith_trans _ (name e)); [apply str_path_endswith_name | exact M].
Qed.



(** X5: when no ignored name ends with a watched extension, the ignore list
    has no effect: the snapshot is the one an empty ignore list gives. *)
Theorem ignore_list_without_effect
    (md5_hexdigest : list Byte.byte -> string)
    (WATCH_EXTENSIONS IGNORE_FILES : list string) (D : dirstate) :
  ignore_unmatched WATCH_EXTENSIONS IGNORE_FILES ->
  get_all_watched_files md5_hexdigest WATCH_EXTENSIONS IGNORE_FILES D =
  get_all_watched_files md5_hexdigest WATCH_EXTENSIONS [] D.
Proof.
  intros Hun. unfold get_all_watched_files.
  assert (G : forall l files,
             (forall ext, In ext l -> In ext WATCH_EXTENSIONS) ->
             fold_left (scan_ext md5_hexdigest IGNORE_FILES D) l files =
             fold_left (scan_ext md5_hexdigest [] D) l files).
  { induction l as [|ext l IH]; intros files Hsub; simpl; [reflexivity|].
    rewrite IH by (intros x I; apply Hsub; now right). f_equal.
    unfold scan_ext. apply fold_visit_no_ignore. intros e I.
    apply filter_In in I as [_ M]. apply andb_true_iff in M as [_ M].
    destruct (ignored IGNORE_FILES e) eqn:Ig; [|reflexivity]. exfalso.
    apply ignored_true_iff in Ig. unfold ignore_unmatched in Hun.
    rewrite Forall_forall in Hun. specialize (Hun _ Ig).
    assert (T : existsb (endswith (name e)) WATCH_EXTENSIONS = true).
    { apply existsb_exists. exists ext. split; [apply Hsub; now left | exact M]. }
    congruence. }
  apply G. tauto.
Qed.

(** X6: when no watched extension is a suffix of another, the keys of the
    snapshot of a well-formed directory state come in the order of the two
    loops: extension by extension, and for each extension the selected paths
    in the order of the listing. *)
Theorem snapshot_iteration_order
    (md5_hexdigest : list Byte.byte -> string)
    (WATCH_EXTENSIONS IGNORE_FILES : list string) (D : dirstate) :
  suffix_free WATCH_EXTENSIONS ->
  wf_dirstate D ->
  PyDict.keys (get_all_watched_files md5_hexdigest WATCH_EXTENSIONS IGNORE_FILES D) =
  map (fun e => str_path (relative_to e))
    (flat_map (fun ext => filter (fun e => negb (ignored IGNORE_FILES e)) (rglob D ext))
       WATCH_EXTENSIONS).
Proof.
  intros Hsf Hwf. rewrite snapshot_as_assignments.
  rewrite keys_fold_put_fresh; [reflexivity|]. simpl.
  now apply visited_keys_nodup.
Qed.

(** ** Scan and comparison together *)



(** X9: when every watched extension is non-empty and does not end with a
    closing parenthesis, no string of the change list of two scans is both a
    modified record and a deleted record: a line of the report tells its
    kind. *)
Theorem report_lines_unambiguous
    (md5_hexdigest : list Byte.byte -> string)
    (WATCH_EXTENSIONS IGNORE_FILES : list string)
    (D1 D2 : dirstate) (s : string) :
  plain_extensions WATCH_EXTENSIONS ->
  In s (modified_loop
          (get_all_watched_files md5_hexdigest WATCH_EXTENSIONS IGNORE_FILES D1)
          (get_all_watched_files md5_hexdigest WATCH_EXTENSIONS IGNORE_FILES D2) []) ->
  ~ In s (deleted_loop
            (get_all_watched_files md5_hexdigest WATCH_EXTENSIONS IGNORE_FILES D1)
            (get_all_watched_files md5_hexdigest WATCH_EXTENSIONS IGNORE_FILES D2) []).
Proof.
  intros Hplain Im Id.
  apply modified_loop_keys, snapshot_key_endswith in Im as [ext [Hext M]].
  apply deleted_loop_records in Id as [q [-> _]].
  unfold plain_extensions in Hplain. rewrite Forall_forall in Hplain.
  destruct (Hplain ext Hext) as [Hne Hparen].
  assert (P : endswith (deleted_record q) ")" = true).
  { apply endswith_iff. exists (q ++ " (deleted"). unfold deleted_record.
    now rewrite append_assoc. }
  destruct (endswith_two _ _ _ M P) as [T|T]; [congruence|].
  apply endswith_iff in T as [pre T].
  destruct pre as [|c pre]; simpl in T.
  - subst ext. discriminate Hparen.
  - injection T as _ T. destruct pre; simpl in T; [now subst ext | discriminate].
Qed.

(** ** More on the watch loop *)

(** X10: a cycle prints nothing if and only if the stored snapshot and the
    current one hold the same keys with the same fingerprints. *)
Theorem cycle_silent_iff
    (md5_hexdigest : list Byte.byte -> string)
    (WATCH_EXTENSIONS IGNORE_FILES : list string)
    (file_hashes : snapshot) (D : dirstate) :
  fst (cycle md5_hexdigest WATCH_EXTENSIONS IGNORE_FILES file_hashes D) = [] <->
  PyDict.same_mapping file_hashes
    (get_all_watched_files md5_hexdigest WATCH_EXTENSIONS IGNORE_FILES D).
Proof.
  destruct (changed_files file_hashes
              (get_all_watched_files md5_hexdigest WATCH_EXTENSIONS IGNORE_FILES D))
    as [|c l] eqn:E.
  - rewrite cycle_unchanged by exact E. simpl. split; [intros _|reflexivity].
    now apply changed_files_nil_same_mapping.
  - rewrite cycle_changed by (rewrite E; discriminate). simpl. split; [discriminate|].
    intros S. apply same_mapping_changed_files_nil in S; [congruence|].
    apply snapshot_wf.
Qed.

(** X11: as long as every cycle sees the entries the baseline scan saw, in
    whatever order, the process prints nothing after the banner and keeps
    the baseline. *)
Theorem quiet_while_unchanged
    (md5_hexdigest : list Byte.byte -> string)
    (WATCH_EXTENSIONS IGNORE_FILES : list string) (WATCH_DIR : string)
    (D0 : dirstate) (evs : list event) :
  wf_dirstate D0 ->
  Forall (fun ev => exists D, ev = Tick D /\ Permutation D0 D) evs ->
  run md5_hexdigest WATCH_EXTENSIONS IGNORE_FILES
    (startup md5_hexdigest WATCH_EXTENSIONS IGNORE_FILES WATCH_DIR D0) evs =
  startup md5_hexdigest WATCH_EXTENSIONS IGNORE_FILES WATCH_DIR D0.
Proof.
  intros Hwf Hevs. unfold run.
  induction Hevs as [|ev evs [D [-> P]] _ IH]; simpl; [reflexivity|].
  rewrite (step_tick _ _ _ _
             (get_all_watched_files md5_hexdigest WATCH_EXTENSIONS IGNORE_FILES D0))
    by reflexivity.
  rewrite quiet_on_unchanged_directory by assumption.
  simpl fst. simpl snd. rewrite app_nil_r. exact IH.
Qed.

(** X12: once a cycle has run on a well-formed directory state, a cycle on
    the same entries, in whatever order, prints nothing and changes
    nothing: a change is reported once. *)
Theorem change_reported_once
    (md5_hexdigest : list Byte.byte -> string)
    (WATCH_EXTENSIONS IGNORE_FILES : list string)
    (p : process) (file_hashes : snapshot) (D D' : dirstate) :
  state p = Watching file_hashes ->
  wf_dirstate D ->
  Permutation D D' ->
  step md5_hexdigest WATCH_EXTENSIONS IGNORE_FILES
    (step md5_hexdigest WATCH_EXTENSIONS IGNORE_FILES p (Tick D)) (Tick D') =
  step md5_hexdigest WATCH_EXTENSIONS IGNORE_FILES p (Tick D).
Proof.
  intros H Hwf P. rewrite (step_tick _ _ _ _ _ _ H).
  rewrite (step_tick _ _ _ _
             (snd (cycle md5_hexdigest WATCH_EXTENSIONS IGNORE_FILES file_hashes D)))
    by reflexivity.
  rewrite (cycle_unchanged _ _ _ _ D').
  - simpl. now rewrite app_nil_r.
  - apply same_mapping_changed_files_nil; [apply snapshot_wf|].
    intros k. rewrite (cycle_stored_same_mapping _ _ _ file_hashes D k).
    now apply snapshot_perm.
Qed.

(** ** The configuration of the script *)

Lemma script_extensions_suffix_free : suffix_free Script.WATCH_EXTENSIONS.
Proof. unfold suffix_free, Script.WATCH_EXTENSIONS. repeat constructor. Qed.

Lemma script_extensions_plain : plain_extensions Script.WATCH_EXTENSIONS.
Proof.
  unfold plain_extensions, Script.WATCH_EXTENSIONS.
  repeat constructor; discriminate.
Qed.

Lemma script_ignore_unmatched :
  ignore_unmatched Script.WATCH_EXTENSIONS Script.IGNORE_FILES.
Proof. unfold ignore_unmatched, Script.IGNORE_FILES. repeat constructor. Qed.

(** ** Empty snapshots *)

(** X13: against an empty stored snapshot every current path is reported as
    modified, in the order of the current snapshot; against an empty current
    snapshot every stored path is reported as deleted, in the order of the
    stored one. *)
Theorem changed_files_empty_side (d : snapshot) :
  changed_files PyDict.empty d = map modified_record (PyDict.keys d) /\
  changed_files d PyDict.empty = map deleted_record (PyDict.keys d).
Proof.
  rewrite !changed_files_app, !modified_loop_filter, !deleted_loop_filter.
  unfold PyDict.empty, PyDict.items, PyDict.keys, modified_record. simpl. split.
  - rewrite app_nil_r, map_id.
    induction d as [|[k v] d IH]; simpl; [reflexivity | now rewrite IH].
  - induction d as [|[k v] d IH]; simpl; [reflexivity | now rewrite IH].
Qed.

(** ** The further properties on the sample data *)

Lemma sample_tree_edited_wf : wf_dirstate sample_tree_edited.
Proof.
  split.
  - unfold sample_tree_edited, relative_to. simpl. prove_nodup.
  - unfold sample_tree_edited, relative_to. simpl.
    repeat constructor; unfold no_slash; simpl; intuition discriminate.
Qed.

Lemma change_records_distinct_witness :
  PyDict.wf sample_previous /\ PyDict.wf sample_current /\
  NoDup (modified_loop sample_previous sample_current []) /\
  NoDup (deleted_loop sample_previous sample_current []).
Proof.
  split; [exact sample_previous_wf|]. split; [exact sample_current_wf|].
  destruct (change_records_distinct sample_previous sample_current
              sample_previous_wf sample_current_wf) as [Hm [Hd _]].
  now split.
Defined.

Lemma changed_files_nil_iff_same_mapping_witness :
  PyDict.wf sample_current /\
  (changed_files (rev sample_current) sample_current = [] <->
   PyDict.same_mapping (rev sample_current) sample_current).
Proof.
  split; [exact sample_current_wf|].
  apply (changed_files_nil_iff_same_mapping (rev sample_current) sample_current
           sample_current_wf).
Defined.


Lemma ignore_list_without_effect_witness :
  ignore_unmatched Script.WATCH_EXTENSIONS Script.IGNORE_FILES /\
  get_all_watched_files sample_digest Script.WATCH_EXTENSIONS Script.IGNORE_FILES
    sample_tree =
  get_all_watched_files sample_digest Script.WATCH_EXTENSIONS [] sample_tree.
Proof.
  split; [exact script_ignore_unmatched|].
  apply (ignore_list_without_effect sample_digest Script.WATCH_EXTENSIONS
           Script.IGNORE_FILES sample_tree script_ignore_unmatched).
Defined.

Lemma snapshot_iteration_order_witness :
  suffix_free Script.WATCH_EXTENSIONS /\
  wf_dirstate sample_tree_edited /\
  PyDict.keys (get_all_watched_files sample_digest Script.WATCH_EXTENSIONS
                 Script.IGNORE_FILES sample_tree_edited) =
  ["popup.js"; "node_modules/chart.js"; "node_modules/chart.js/index.js";
   "options/options.html"].
Proof.
  split; [exact script_extensions_suffix_free|].
  split; [exact sample_tree_edited_wf|].
  apply (snapshot_iteration_order sample_digest Script.WATCH_EXTENSIONS
           Script.IGNORE_FILES sample_tree_edited
           script_extensions_suffix_free sample_tree_edited_wf).
Defined.


Lemma report_lines_unambiguous_witness :
  let file_hashes :=
    get_all_watched_files sample_digest Script.WATCH_EXTENSIONS Script.IGNORE_FILES
      sample_tree in
  let current_hashes :=
    get_all_watched_files sample_digest Script.WATCH_EXTENSIONS Script.IGNORE_FILES
      sample_tree_edited in
  plain_extensions Script.WATCH_EXTENSIONS /\
  In "popup.js" (modified_loop file_hashes current_hashes []) /\
  ~ In "popup.js" (deleted_loop file_hashes current_hashes []).
Proof.
  cbv zeta. split; [exact script_extensions_plain|].
  assert (I : In "popup.js"
                (modified_loop
                   (get_all_watched_files sample_digest Script.WATCH_EXTENSIONS
                      Script.IGNORE_FILES sample_tree)
                   (get_all_watched_files sample_digest Script.WATCH_EXTENSIONS
                      Script.IGNORE_FILES sample_tree_edited) []))
    by (now left).
  split; [exact I|].
  apply (report_lines_unambiguous sample_digest Script.WATCH_EXTENSIONS
           Script.IGNORE_FILES sample_tree sample_tree_edited "popup.js"
           script_extensions_plain I).
Defined.

Lemma quiet_while_unchanged_witness :
  let p :=
    startup sample_digest Script.WATCH_EXTENSIONS Script.IGNORE_FILES "/ext" sample_tree in
  let evs := [Tick sample_tree; Tick sample_tree_reordered; Tick sample_tree] in
  wf_dirstate sample_tree /\
  Forall (fun ev => exists D, ev = Tick D /\ Permutation sample_tree D) evs /\
  run sample_digest Script.WATCH_EXTENSIONS Script.IGNORE_FILES p evs = p.
Proof.
  cbv zeta.
  assert (F : Forall (fun ev => exists D, ev = Tick D /\ Permutation sample_tree D)
                [Tick sample_tree; Tick sample_tree_reordered; Tick sample_tree]).
  { repeat constructor.
    - exists sample_tree. split; [reflexivity | apply Permutation_refl].
    - exists sample_tree_reordered. split; [reflexivity | apply Permutation_rev].
    - exists sample_tree. split; [reflexivity | apply Permutation_refl]. }
  split; [exact sample_tree_wf|]. split; [exact F|].
  apply (quiet_while_unchanged sample_digest Script.WATCH_EXTENSIONS
           Script.IGNORE_FILES "/ext" sample_tree _ sample_tree_wf F).
Defined.

Lemma change_reported_once_witness :
  let p := sample_process sample_previous in
  let p1 :=
    step sample_digest Script.WATCH_EXTENSIONS Script.IGNORE_FILES p (Tick sample_tree) in
  state p = Watching sample_previous /\
  wf_dirstate sample_tree /\
  Permutation sample_tree sample_tree_reordered /\
  step sample_digest Script.WATCH_EXTENSIONS Script.IGNORE_FILES p1
    (Tick sample_tree_reordered) = p1.
Proof.
  cbv zeta. split; [reflexivity|]. split; [exact sample_tree_wf|].
  split; [apply Permutation_rev|].
  apply (change_reported_once sample_digest Script.WATCH_EXTENSIONS
           Script.IGNORE_FILES (sample_process sample_previous) sample_previous
           sample_tree sample_tree_reordered eq_refl sample_tree_wf
           (Permutation_rev sample_tree)).
Defined.

(** When a directory stops being listable between two scans, what lies below
    it leaves the snapshot and is reported as deleted, although it is still
    there. *)
Example locked_directory_reports_deleted :
  changed_files
    (get_all_watched_files sample_digest Script.WATCH_EXTENSIONS Script.IGNORE_FILES
       [ mkEntry [] "popup.js" (RegularFile (bytes_of "x"));
         mkEntry [] "private" Directory;
         mkEntry ["private"] "secret.js" (RegularFile (bytes_of "s")) ])
    (get_all_watched_files sample_digest Script.WATCH_EXTENSIONS Script.IGNORE_FILES
       sample_tree_locked)
  = ["private/secret.js (deleted)"].
Proof. reflexivity. Qed.
